(** * The notebook [03-Features-Modeling.ipynb] as a program

    The repository is one Jupyter notebook.  Its code cells hold six
    straight-line Python statements; everything else is markdown.  This
    development embeds

    - the notebook document (cells, their source lines, their stored
      outputs) together with the abstract syntax of the statements,
    - a small interpreter for that fragment of Python running in a
      kernel (user namespace, client objects, trace of operations),
      parametrised by the behaviour of the environment (which imports
      resolve, whether the cluster starts, whether the shutdown returns),

    and proves the properties of the notebook over them. *)

From Stdlib Require Import ZArith List Bool Ascii String.
From stdpp Require Import gmap strings list fin_maps pretty.
Import ListNotations.

Set Warnings "-register-all,-clear-no-such-hyp".

Local Open Scope string_scope.
Local Open Scope list_scope.

(** ** Abstract syntax (the fragment of Python's [ast] the notebook uses) *)

Module Ast.

Inductive constant : Type :=
| Num (n : Z)
| Str (s : string).

Inductive expr : Type :=
| Name (id : string)
| Constant (value : constant)
| Attribute (value : expr) (attr : string)
| Call (func : expr) (args : list expr) (keywords : list (string * expr)).

Inductive stmt : Type :=
| ImportFrom (module name : string) (asname : option string)
| Assign (target : string) (value : expr)
| Expr (value : expr).

#[global] Instance constant_eq_dec : EqDecision constant.
Proof. solve_decision. Defined.

(** Concrete syntax, as [ast.unparse] prints it. *)

Definition unparse_constant (c : constant) : string :=
  match c with
  | Num n => pretty n
  | Str s => "'" +:+ s +:+ "'"
  end.

Fixpoint unparse_expr (e : expr) : string :=
  match e with
  | Name id => id
  | Constant c => unparse_constant c
  | Attribute v a => unparse_expr v +:+ "." +:+ a
  | Call f args kws =>
      unparse_expr f +:+ "("
        +:+ String.concat ", "
             (map unparse_expr args
                ++ map (fun kw : string * expr =>
                          let (k, v) := kw in k +:+ "=" +:+ unparse_expr v) kws)
        +:+ ")"
  end.

Definition unparse_stmt (s : stmt) : string :=
  match s with
  | ImportFrom m n None => "from " +:+ m +:+ " import " +:+ n
  | ImportFrom m n (Some a) => "from " +:+ m +:+ " import " +:+ n +:+ " as " +:+ a
  | Assign x e => x +:+ " = " +:+ unparse_expr e
  | Expr e => unparse_expr e
  end.

(** Every [Call] node of an expression, outermost first. *)
Fixpoint calls_of_expr (e : expr) : list expr :=
  match e with
  | Name _ | Constant _ => []
  | Attribute v _ => calls_of_expr v
  | Call f args kws =>
      e :: calls_of_expr f
        ++ flat_map calls_of_expr args
        ++ flat_map (fun kw : string * expr => let (_, v) := kw in calls_of_expr v) kws
  end.

(** The names an expression reads. *)
Fixpoint names_of_expr (e : expr) : list string :=
  match e with
  | Name id => [id]
  | Constant _ => []
  | Attribute v _ => names_of_expr v
  | Call f args kws =>
      names_of_expr f
        ++ flat_map names_of_expr args
        ++ flat_map (fun kw : string * expr => let (_, v) := kw in names_of_expr v) kws
  end.

Definition stmt_value (s : stmt) : option expr :=
  match s with
  | ImportFrom _ _ _ => None
  | Assign _ e | Expr e => Some e
  end.

Definition calls_of_stmt (s : stmt) : list expr :=
  from_option calls_of_expr [] (stmt_value s).

(** Names read by a statement. *)
Definition reads (s : stmt) : list string :=
  from_option names_of_expr [] (stmt_value s).

End Ast.
Export Ast.

(** ** The notebook document *)

Module Notebook.

(** Stored outputs of a code cell ([output_type] of nbformat 4). *)
Inductive output : Type :=
| execute_result (execution_count : nat) (text_plain : string)
| stream (name text : string)
| error (ename evalue : string).

Inductive cell : Type :=
| markdown
| code (execution_count : option nat) (source : list string)
       (body : list stmt) (outputs : list output).

Definition is_code (c : cell) : bool :=
  match c with markdown => false | code _ _ _ _ => true end.

Definition source (c : cell) : list string :=
  match c with markdown => [] | code _ src _ _ => src end.

Definition body (c : cell) : list stmt :=
  match c with markdown => [] | code _ _ b _ => b end.

Definition outputs (c : cell) : list output :=
  match c with markdown => [] | code _ _ _ o => o end.

Definition execution_count (c : cell) : option nat :=
  match c with markdown => None | code n _ _ _ => n end.

(** A source line holds a statement unless it is blank or a comment. *)
Definition is_code_line (l : string) : bool :=
  match l with
  | "" => false
  | String c _ => negb (Ascii.eqb c "#"%char)
  end.

(** The keyword arguments of the one [Client(...)] call. *)
Definition client_keywords : list (string * expr) :=
  [ ("n_workers", Constant (Num 2));
    ("threads_per_worker", Constant (Num 1));
    ("memory_limit", Constant (Str "1GB")) ].

Definition construct_client : stmt :=
  Assign "client" (Call (Name "Client") [] client_keywords).

Definition show_client : stmt := Expr (Name "client").

Definition close_client : stmt :=
  Expr (Call (Attribute (Name "client") "close") [] []).

(** Code cell [In [2]]: the imports and the construction. *)
Definition cell_setup : cell :=
  code (Some 2)
    [ "from dask import dataframe as ddf";
      "from dask import array as da";
      "from dask.distributed import Client";
      "";
      "client = Client(n_workers=2, threads_per_worker=1, memory_limit='1GB')" ]
    [ ImportFrom "dask" "dataframe" (Some "ddf");
      ImportFrom "dask" "array" (Some "da");
      ImportFrom "dask.distributed" "Client" None;
      construct_client ]
    [].

(** Code cell [In [3]]: the bare name, with its stored display. *)
Definition cell_show : cell :=
  code (Some 3)
    [ "client" ]
    [ show_client ]
    [ execute_result 3
        "<Client: 'tcp://127.0.0.1:52321' processes=2 threads=2, memory=2.00 GB>" ].

(** Code cell [In [4]]: a comment only. *)
Definition cell_fixme : cell :=
  code (Some 4) [ "# FIXME examples" ] [] [].

(** Code cell [In [5]]: the shutdown. *)
Definition cell_close : cell :=
  code (Some 5) [ "client.close()" ] [ close_client ] [].

(** The trailing code cell, never filled in. *)
Definition cell_empty : cell := code None [] [] [].

(** The cells in document order: four markdown cells, the four executed
    code cells, the "Modeling" heading and the empty code cell. *)
Definition notebook : list cell :=
  [ markdown; markdown; markdown; markdown;
    cell_setup; cell_show; cell_fixme; cell_close;
    markdown; cell_empty ].

Definition code_cells (nb : list cell) : list cell := filter (fun c => is_code c = true) nb.

(** All executable statements of a notebook, in document order. *)
Definition statements (nb : list cell) : list stmt := flat_map body nb.

Definition calls (nb : list cell) : list expr := flat_map calls_of_stmt (statements nb).

End Notebook.
Export Notebook.

(** ** The kernel: values, environment, state *)

Module Kernel.

(** Python objects the fragment can produce. *)
Inductive value : Type :=
| VInt (n : Z)
| VStr (s : string)
| VNone
| VModule (qualname : string)
| VBuiltin (name : string)
| VClientClass                    (* [dask.distributed.Client] *)
| VClient (h : nat)               (* a client object, by handle *)
| VCloseMethod (h : nat)          (* the bound method [<client>.close] *)
| VFile.

#[global] Instance value_eq_dec : EqDecision value.
Proof. solve_decision. Defined.

(** Operations a run performs, in the order it performs them. *)
Inductive event : Type :=
| EvImport (module name : string)
| EvClientStart (h : nat) (args : list value) (kwargs : list (string * value))
| EvClientClose (h : nat)
| EvDisplay (v : value)
| EvOpen (args : list value)
| EvInput
| EvPrint (args : list value).

#[global] Instance event_eq_dec : EqDecision event.
Proof. solve_decision. Defined.

Inductive exn : Type :=
| NameError (id : string)
| ImportError (module name : string)
| AttributeError (v : value) (attr : string)
| TypeError (callee : value)
| RuntimeError (what : string).

(** What the notebook does not decide: the Python environment it meets
    when it is run.  A [World] stands for the environment of one run of
    the notebook, or of one execution of a cell: a later execution may
    meet another one (imports that resolve by then, a cluster that
    starts on another port).  [importable m n] tells whether
    [from m import n] resolves;
    [start_cluster args kwargs] is the scheduler address of the local
    cluster that the [Client] constructor starts on those arguments, or
    [None] when the constructor raises; [close_returns h] tells whether
    closing client [h] returns normally; [stdin] is what [input()] would
    read. *)
Record World : Type := {
  importable : string -> string -> bool;
  start_cluster : list value -> list (string * value) -> option string;
  close_returns : nat -> bool;
  stdin : string
}.

Inductive status : Type := Running | Closed.

Record client_object : Type := {
  scheduler : string;
  config : list (string * value);
  state : status
}.

(** The kernel: the user namespace, the client objects by handle, and
    the operations performed so far (oldest first). *)
Record kernel : Type := {
  user_ns : gmap string value;
  clients : list client_object;
  trace : list event
}.

Definition fresh_kernel : kernel :=
  {| user_ns := ∅; clients := []; trace := [] |}.

(** *** A state-and-exception monad over the kernel *)

Definition M (A : Type) : Type := kernel -> (exn + A) * kernel.

Definition ret {A} (a : A) : M A := fun k => (inr a, k).

Definition raise {A} (e : exn) : M A := fun k => (inl e, k).

Definition bind {A B} (m : M A) (f : A -> M B) : M B :=
  fun k =>
    match m k with
    | (inl e, k') => (inl e, k')
    | (inr a, k') => f a k'
    end.

Declare Scope kernel_scope.
Delimit Scope kernel_scope with kernel.
Notation "x <- m ;; f" := (bind m (fun x => f))
  (at level 100, m at next level, right associativity) : kernel_scope.
Notation "m ;; f" := (bind m (fun _ => f))
  (at level 100, right associativity) : kernel_scope.
Local Open Scope kernel_scope.

Definition emit (e : event) : M unit :=
  fun k => (inr tt, {| user_ns := user_ns k; clients := clients k; trace := trace k ++ [e] |}).

Definition store (x : string) (v : value) : M unit :=
  fun k => (inr tt, {| user_ns := <[x := v]> (user_ns k); clients := clients k; trace := trace k |}).

Definition builtins : list string := [ "open"; "input"; "print" ].

(** Name resolution: the user namespace, then the builtins. *)
Definition load (x : string) : M value :=
  fun k =>
    match user_ns k !! x with
    | Some v => (inr v, k)
    | None =>
        if bool_decide (x ∈ builtins) then (inr (VBuiltin x), k)
        else (inl (NameError x), k)
    end.

(** The object that [from m import n] yields once it resolves.  Of the
    dask library the model knows one class, [dask.distributed.Client];
    any other import yields a module object. *)
Definition imported (m n : string) : value :=
  if bool_decide (m = "dask.distributed" /\ n = "Client") then VClientClass
  else VModule (m +:+ "." +:+ n).

Definition new_client (addr : string) (kw : list (string * value)) : M nat :=
  fun k =>
    (inr (length (clients k)),
     {| user_ns := user_ns k;
        clients := clients k ++ [ {| scheduler := addr; config := kw; state := Running |} ];
        trace := trace k |}).

Definition mark_closed (h : nat) : M unit :=
  fun k =>
    (inr tt,
     {| user_ns := user_ns k;
        clients := alter (fun c => {| scheduler := scheduler c; config := config c;
                                       state := Closed |}) h (clients k);
        trace := trace k |}).

Section Interpreter.

Variable W : World.

(** Attribute access: a client has the method [close]; a module has the
    attributes that can be imported from it. *)
Definition getattr (v : value) (a : string) : M value :=
  match v with
  | VClient h =>
      if bool_decide (a = "close") then ret (VCloseMethod h)
      else raise (AttributeError v a)
  | VModule q =>
      if importable W q a then ret (imported q a) else raise (AttributeError v a)
  | _ => raise (AttributeError v a)
  end.

(** Calling an object.  The constructor registers a new running client
    when the environment lets the cluster start; [close] is recorded when
    it is called, and marks the client closed when it returns. *)
Definition call (f : value) (args : list value) (kwargs : list (string * value)) : M value :=
  match f with
  | VClientClass =>
      match start_cluster W args kwargs with
      | Some addr =>
          h <- new_client addr kwargs ;;
          emit (EvClientStart h args kwargs) ;;
          ret (VClient h)
      | None => raise (RuntimeError "Client")
      end
  | VCloseMethod h =>
      emit (EvClientClose h) ;;
      if close_returns W h then mark_closed h ;; ret VNone
      else raise (RuntimeError "close")
  | VBuiltin "open" => emit (EvOpen args) ;; ret VFile
  | VBuiltin "input" => emit EvInput ;; ret (VStr (stdin W))
  | VBuiltin "print" => emit (EvPrint args) ;; ret VNone
  | _ => raise (TypeError f)
  end.

Definition const_value (c : constant) : value :=
  match c with
  | Num n => VInt n
  | Str s => VStr s
  end.

(** Evaluation: callee first, then positional, then keyword arguments,
    left to right. *)
Fixpoint eval (e : expr) : M value :=
  match e with
  | Name id => load id
  | Constant c => ret (const_value c)
  | Attribute e' a => v <- eval e' ;; getattr v a
  | Call f args kws =>
      fv <- eval f ;;
      avs <- (fix eval_args (l : list expr) : M (list value) :=
                match l with
                | [] => ret []
                | a :: l' => v <- eval a ;; vs <- eval_args l' ;; ret (v :: vs)
                end) args ;;
      kvs <- (fix eval_keywords (l : list (string * expr)) : M (list (string * value)) :=
                match l with
                | [] => ret []
                | (x, a) :: l' => v <- eval a ;; vs <- eval_keywords l' ;; ret ((x, v) :: vs)
                end) kws ;;
      call fv avs kvs
  end.

Definition exec_import (m n : string) (asname : option string) : M unit :=
  if importable W m n then
    emit (EvImport m n) ;;
    store (default n asname) (imported m n)
  else raise (ImportError m n).

(** One statement; an expression statement hands its value back. *)
Definition exec_stmt (s : stmt) : M (option value) :=
  match s with
  | ImportFrom m n a => exec_import m n a ;; ret None
  | Assign x e => v <- eval e ;; store x v ;; ret None
  | Expr e => v <- eval e ;; ret (Some v)
  end.

(** The display hook: the value of a cell's last statement is shown
    when that statement is an expression whose value is not [None].
    The shell's own record of results and inputs (the names [_], [__],
    [_3], [Out], [In], [_i] and the like, see [shell_name] below) is not
    modelled: [user_ns] stands for the bindings of all other names. *)
Definition display (r : option value) : M unit :=
  match r with
  | Some VNone | None => ret tt
  | Some v => emit (EvDisplay v)
  end.

Fixpoint exec_body (b : list stmt) : M unit :=
  match b with
  | [] => ret tt
  | [s] => r <- exec_stmt s ;; display r
  | s :: rest => exec_stmt s ;; exec_body rest
  end.

Definition exec_cell (c : cell) : M unit := exec_body (body c).

Inductive outcome : Type :=
| Completed
| Raised (cell_index : nat) (e : exn).

(** "Run All": cells in document order, stopping at the first cell that
    raises.  [i] is the index of the first cell of [nb] in the document. *)
Fixpoint run_cells (i : nat) (nb : list cell) (k : kernel) : outcome * kernel :=
  match nb with
  | [] => (Completed, k)
  | c :: rest =>
      match exec_cell c k with
      | (inl e, k') => (Raised i e, k')
      | (inr _, k') => run_cells (S i) rest k'
      end
  end.

Definition run_all (nb : list cell) : outcome * kernel := run_cells 0 nb fresh_kernel.

End Interpreter.

(** The run of the notebook in environment [W]. *)
Definition run (W : World) : outcome * kernel := run_all W notebook.

(** The run of the notebook in a kernel whose namespace already holds
    [ns], as when cells were executed before "Run All". *)
Definition run_from (W : World) (ns : gmap string value) : outcome * kernel :=
  run_cells W 0 notebook {| user_ns := ns; clients := []; trace := [] |}.

(** An environment in which everything the notebook relies on is
    installed and works, with the scheduler address of the recorded run. *)
Definition recorded_world : World :=
  {| importable := fun m n =>
       bool_decide (m = "dask" /\ (n = "dataframe" \/ n = "array"))
       || bool_decide (m = "dask.distributed" /\ n = "Client");
     start_cluster := fun _ _ => Some "tcp://127.0.0.1:52321";
     close_returns := fun _ => true;
     stdin := "" |}.

End Kernel.
Export Kernel.

(** ** Running the notebook *)

Definition result (W : World) : outcome := fst (run W).
Definition final (W : World) : kernel := snd (run W).

(** What a run lets one observe from outside the namespace. *)
Definition observable (r : outcome * kernel) : outcome * list event * list client_object :=
  (fst r, trace (snd r), clients (snd r)).

(** The notebook with the imports of [ddf] and [da] taken out. *)
Definition unused_import (s : stmt) : bool :=
  match s with
  | ImportFrom _ _ (Some a) => bool_decide (a = "ddf" \/ a = "da")
  | _ => false
  end.

Definition drop_unused_imports (c : cell) : cell :=
  match c with
  | markdown => markdown
  | code n src b o => code n src (filter (fun s => unused_import s = false) b) o
  end.

Definition trimmed : list cell := map drop_unused_imports notebook.

(** The values the keyword arguments of the [Client] call evaluate to. *)
Definition client_config : list (string * value) :=
  [ ("n_workers", VInt 2); ("threads_per_worker", VInt 1); ("memory_limit", VStr "1GB") ].

(** Everything a complete run does, in order. *)
Definition full_trace : list event :=
  [ EvImport "dask" "dataframe";
    EvImport "dask" "array";
    EvImport "dask.distributed" "Client";
    EvClientStart 0 [] client_config;
    EvDisplay (VClient 0);
    EvClientClose 0 ].

(** The namespace after the first [n] bindings of the setup cell. *)
Definition ns_after (n : nat) : gmap string value :=
  list_to_map
    (reverse (take n [ ("ddf", VModule "dask.dataframe");
                       ("da", VModule "dask.array");
                       ("Client", VClientClass);
                       ("client", VClient 0) ])).

Definition the_client (addr : string) (st : status) : client_object :=
  {| scheduler := addr; config := client_config; state := st |}.

(** The kernel states a run can end in. *)
Definition stopped_at_import (n : nat) : kernel :=
  {| user_ns := ns_after n; clients := []; trace := take n full_trace |}.

Definition close_failed (addr : string) : kernel :=
  {| user_ns := ns_after 4; clients := [the_client addr Running]; trace := full_trace |}.

Definition finished (addr : string) : kernel :=
  {| user_ns := ns_after 4; clients := [the_client addr Closed]; trace := full_trace |}.

(** What is left of a kernel state once the two imports are disregarded. *)
Definition unused_import_event (e : event) : Prop :=
  e = EvImport "dask" "dataframe" \/ e = EvImport "dask" "array".

#[global] Instance unused_import_event_dec e : Decision (unused_import_event e).
Proof. unfold unused_import_event. apply _. Defined.

Definition forget_unused (k : kernel) : kernel :=
  {| user_ns := delete "ddf" (delete "da" (user_ns k));
     clients := clients k;
     trace := filter (fun e => ~ unused_import_event e) (trace k) |}.

(** ** Vocabulary of the properties *)

(** A statement that calls the [Client] constructor. *)
Definition constructs_client (s : stmt) : bool :=
  match stmt_value s with
  | Some (Call (Name "Client") _ _) => true
  | _ => false
  end.

(** A statement that calls the [close] method of some object. *)
Definition closes_client (s : stmt) : bool :=
  match stmt_value s with
  | Some (Call (Attribute _ "close") _ _) => true
  | _ => false
  end.

(** The calls of the [Client] constructor in a notebook. *)
Definition is_client_call (e : expr) : bool :=
  match e with Call (Name "Client") _ _ => true | _ => false end.

Definition client_calls (nb : list cell) : list expr :=
  filter (fun e => is_client_call e = true) (calls nb).

(** What follows the first element satisfying [p]. *)
Fixpoint after {A} (p : A -> bool) (l : list A) : list A :=
  match l with
  | [] => []
  | x :: rest => if p x then rest else after p rest
  end.

(** What precedes the first element satisfying [p]. *)
Fixpoint before {A} (p : A -> bool) (l : list A) : list A :=
  match l with
  | [] => []
  | x :: rest => if p x then [] else x :: before p rest
  end.

Definition cell_has (p : stmt -> bool) (c : cell) : bool := existsb p (body c).

(** The cells after the one that constructs the client and before the
    one that closes it. *)
Definition intervening (nb : list cell) : list cell :=
  before (cell_has closes_client) (after (cell_has constructs_client) nb).

Definition is_start (e : event) : bool :=
  match e with EvClientStart _ _ _ => true | _ => false end.

Definition is_close (e : event) : bool :=
  match e with EvClientClose _ => true | _ => false end.

(** The operations performed after a client started and before one is closed. *)
Definition while_open (tr : list event) : list event :=
  before is_close (after is_start tr).

(** The source lines that hold code. *)
Definition code_lines (nb : list cell) : list string :=
  filter (fun l => is_code_line l = true) (flat_map source nb).

(** The [(module, name)] pairs a notebook imports. *)
Definition imports (nb : list cell) : list (string * string) :=
  flat_map (fun s => match s with ImportFrom m n _ => [(m, n)] | _ => [] end)
           (statements nb).

(** Operations on files, standard input or standard output. *)
Definition is_io (e : event) : Prop :=
  match e with
  | EvOpen _ | EvInput | EvPrint _ => True
  | _ => False
  end.

(** A client start with the given arguments (anything else passes). *)
Definition started_with (args : list value) (kwargs : list (string * value))
    (e : event) : Prop :=
  match e with
  | EvClientStart _ a kw => a = args /\ kw = kwargs
  | _ => True
  end.

(** A call all of whose arguments are literals. *)
Definition is_literal (e : expr) : bool :=
  match e with Constant _ => true | _ => false end.

Definition literal_arguments (e : expr) : bool :=
  match e with
  | Call _ args kws => forallb is_literal args && forallb (fun kw => is_literal (snd kw)) kws
  | _ => false
  end.

Definition is_error (o : output) : bool :=
  match o with error _ _ => true | _ => false end.

Definition with_stdin (s : string) (W : World) : World :=
  {| importable := importable W;
     start_cluster := start_cluster W;
     close_returns := close_returns W;
     stdin := s |}.

(** An environment with dask but without the [distributed] package. *)
Definition no_distributed_world : World :=
  {| importable := fun m n => bool_decide (m = "dask" /\ (n = "dataframe" \/ n = "array"));
     start_cluster := fun _ _ => None;
     close_returns := fun _ => false;
     stdin := "" |}.

(** An environment where the cluster starts on another port and the
    shutdown does not return. *)
Definition stuck_close_world : World :=
  {| importable := importable recorded_world;
     start_cluster := fun _ _ => Some "tcp://127.0.0.1:40000";
     close_returns := fun _ => false;
     stdin := "" |}.

(** An environment with dask and distributed but without pandas, which
    [dask.dataframe] needs. *)
Definition no_pandas_world : World :=
  {| importable := fun m n =>
       bool_decide (m = "dask" /\ n = "array")
       || bool_decide (m = "dask.distributed" /\ n = "Client");
     start_cluster := fun _ _ => Some "tcp://127.0.0.1:8786";
     close_returns := fun _ => true;
     stdin := "" |}.

(** ** Cells run one at a time, and runs in a used kernel *)

(** "Run All" in a kernel that has been used before. *)
Definition run_in (W : World) (k : kernel) : outcome * kernel :=
  run_cells W 0 notebook k.

Definition closed_object (c : client_object) : client_object :=
  {| scheduler := scheduler c; config := config c; state := Closed |}.

Definition is_closed (c : client_object) : bool :=
  match state c with Closed => true | Running => false end.

(** The kernel [k] after the operations [es]. *)
Definition with_trace (k : kernel) (es : list event) : kernel :=
  {| user_ns := user_ns k; clients := clients k; trace := trace k ++ es |}.

(** The bindings of the setup cell when its client gets handle [h]. *)
Definition setup_bindings (h : nat) : list (string * value) :=
  [ ("ddf", VModule "dask.dataframe");
    ("da", VModule "dask.array");
    ("Client", VClientClass);
    ("client", VClient h) ].

(** The operations of the setup cell when its client gets handle [h]. *)
Definition setup_trace (h : nat) : list event :=
  [ EvImport "dask" "dataframe";
    EvImport "dask" "array";
    EvImport "dask.distributed" "Client";
    EvClientStart h [] client_config ].

Definition bind_all (bs : list (string * value)) (ns : gmap string value) :
    gmap string value :=
  foldl (fun m b => <[fst b := snd b]> m) ns bs.

(** The kernel [k] after the first [n] statements of the setup cell, the
    fourth of which starts a client at [addr]. *)
Definition after_setup (n : nat) (addr : string) (k : kernel) : kernel :=
  {| user_ns := bind_all (take n (setup_bindings (length (clients k)))) (user_ns k);
     clients := clients k ++ (if bool_decide (4 <= n) then [the_client addr Running] else []);
     trace := trace k ++ take n (setup_trace (length (clients k))) |}.

(** The kernel after the shutdown cell has called [close] on client [h],
    which returned or not. *)
Definition after_close (h : nat) (returned : bool) (k : kernel) : kernel :=
  {| user_ns := user_ns k;
     clients := if returned then alter closed_object h (clients k) else clients k;
     trace := trace k ++ [EvClientClose h] |}.

(** A kernel that has been used: one binding, one client, long closed. *)
Definition used_kernel : kernel :=
  {| user_ns := {[ "x" := VInt 1 ]};
     clients := [ the_client "tcp://127.0.0.1:8786" Closed ];
     trace := [ EvDisplay (VInt 1) ] |}.

(** The names the interactive shell keeps for its own record of results
    and inputs: those that start with an underscore, [In] and [Out]. *)
Definition shell_name (x : string) : bool :=
  match x with
  | String c _ => Ascii.eqb c "_"%char || bool_decide (x = "In" \/ x = "Out")
  | EmptyString => false
  end.

(** Cells executed one after the other, each in the environment it
    meets, up to the first that raises. *)
Fixpoint exec_cells (steps : list (World * cell)) (k : kernel) : (exn + unit) * kernel :=
  match steps with
  | [] => (inr tt, k)
  | (W, c) :: rest =>
      match exec_cell W c k with
      | (inl e, k') => (inl e, k')
      | (inr _, k') => exec_cells rest k'
      end
  end.

(** "Run All" once per environment of [Ws], in the same kernel, as long
    as the runs complete. *)
Fixpoint run_each (Ws : list World) (k : kernel) : outcome * kernel :=
  match Ws with
  | [] => (Completed, k)
  | W :: rest =>
      match run_in W k with
      | (Completed, k') => run_each rest k'
      | r => r
      end
  end.

(** The setup cell meets an environment where its imports resolve and
    the cluster starts at [addr]. *)
Definition setup_succeeds (W : World) (addr : string) : Prop :=
  importable W "dask" "dataframe" = true
  /\ importable W "dask" "array" = true
  /\ importable W "dask.distributed" "Client" = true
  /\ start_cluster W [] client_config = Some addr.

(** An environment where a whole run succeeds, whatever handle the new
    client gets. *)
Definition cooperates (W : World) : Prop :=
  (exists addr, setup_succeeds W addr) /\ forall h, close_returns W h = true.

(** A later environment: all is as in the recorded one, but the cluster
    starts on another port. *)
Definition later_world : World :=
  {| importable := importable recorded_world;
     start_cluster := fun _ _ => Some "tcp://127.0.0.1:40001";
     close_returns := fun _ => true;
     stdin := "" |}.

(** The names the notebook binds. *)
Definition bound_names : list string := [ "ddf"; "da"; "Client"; "client" ].

(** ** The statements and their source *)

(** The statements written down for each cell are the statements on its
    source lines. *)
Lemma body_matches_source :
  Forall (fun c => map unparse_stmt (body c) = filter (fun l => is_code_line l = true) (source c))
         notebook.
Proof. repeat constructor. Qed.

(** The stored execution counts: the code cells were last executed once
    each, in document order; the trailing cell never was. *)
Lemma recorded_order :
  map execution_count (code_cells notebook) = [Some 2; Some 3; Some 4; Some 5; None].
Proof. reflexivity. Qed.

(** ** Symbolic execution *)

Lemma imported_Client : imported "dask.distributed" "Client" = VClientClass.
Proof. reflexivity. Qed.

Lemma imported_dataframe : imported "dask" "dataframe" = VModule "dask.dataframe".
Proof. reflexivity. Qed.

Lemma imported_array : imported "dask" "array" = VModule "dask.array".
Proof. reflexivity. Qed.

Lemma ns_after_unfold :
  ns_after 0 = ∅
  /\ ns_after 1 = <["ddf" := VModule "dask.dataframe"]> ∅
  /\ ns_after 2 = <["da" := VModule "dask.array"]> (ns_after 1)
  /\ ns_after 3 = <["Client" := VClientClass]> (ns_after 2)
  /\ ns_after 4 = <["client" := VClient 0]> (ns_after 3).
Proof. repeat split; vm_compute; reflexivity. Qed.

(** Unfolds the interpreter on the notebook, leaving the namespace
    operations and the questions to the environment in place. *)
Ltac interp :=
  cbv [run run_from run_all notebook trimmed map drop_unused_imports filter unused_import
       run_cells exec_cell body
       cell_setup cell_show cell_fixme cell_close cell_empty
       construct_client show_client close_client client_keywords
       exec_body exec_stmt exec_import bind emit store ret raise eval load call
       getattr display default new_client mark_closed const_value fresh_kernel
       from_option id user_ns clients trace length app fst snd negb].

Ltac lookup_bound :=
  first [ rewrite lookup_insert_eq
        | rewrite lookup_insert_ne by discriminate ].

(** The run is decided by five answers of the environment. *)
Lemma run_unfold (W : World) :
  run W =
    if importable W "dask" "dataframe" then
      if importable W "dask" "array" then
        if importable W "dask.distributed" "Client" then
          match start_cluster W [] client_config with
          | Some addr =>
              if close_returns W 0 then (Completed, finished addr)
              else (Raised 7 (RuntimeError "close"), close_failed addr)
          | None => (Raised 4 (RuntimeError "Client"), stopped_at_import 3)
          end
        else (Raised 4 (ImportError "dask.distributed" "Client"), stopped_at_import 2)
      else (Raised 4 (ImportError "dask" "array"), stopped_at_import 1)
    else (Raised 4 (ImportError "dask" "dataframe"), stopped_at_import 0).
Proof.
  destruct ns_after_unfold as (N0 & N1 & N2 & N3 & N4).
  unfold finished, close_failed, stopped_at_import, client_config.
  rewrite N4, N3, N2, N1, N0. interp.
  destruct (importable W "dask" "dataframe"); [| reflexivity].
  destruct (importable W "dask" "array"); [| reflexivity].
  destruct (importable W "dask.distributed" "Client"); [| reflexivity].
  rewrite imported_Client, imported_dataframe, imported_array.
  lookup_bound. interp.
  destruct (start_cluster W _ _) as [addr|]; [| reflexivity].
  interp. repeat lookup_bound. interp.
  rewrite bool_decide_eq_true_2 by reflexivity. interp.
  destruct (close_returns W 0); reflexivity.
Qed.

(** Frame: bindings that are there before the run do not influence it,
    and the run leaves them alone unless it rebinds their name. *)
Lemma run_from_frame (W : World) (ns : gmap string value) :
  run_from W ns =
    (result W,
     {| user_ns := user_ns (final W) ∪ ns;
        clients := clients (final W);
        trace := trace (final W) |}).
Proof.
  destruct ns_after_unfold as (N0 & N1 & N2 & N3 & N4).
  assert (U : forall n, n <= 4 -> ns_after n ∪ ns =
    foldl (fun m b => <[fst b := snd b]> m) ns
      (take n [ ("ddf", VModule "dask.dataframe"); ("da", VModule "dask.array");
                ("Client", VClientClass); ("client", VClient 0) ])).
  { intros n Hn.
    do 5 (destruct n as [|n];
          [rewrite ?N4, ?N3, ?N2, ?N1, ?N0, <- ?insert_union_l, ?(left_id_L ∅ (∪));
           reflexivity |]).
    lia. }
  unfold result, final. rewrite run_unfold. unfold finished, close_failed, stopped_at_import.
  interp.
  destruct (importable W "dask" "dataframe"); [| rewrite (U 0) by lia; reflexivity].
  destruct (importable W "dask" "array"); [| rewrite (U 1) by lia; reflexivity].
  destruct (importable W "dask.distributed" "Client"); [| rewrite (U 2) by lia; reflexivity].
  rewrite imported_Client, imported_dataframe, imported_array.
  lookup_bound. interp.
  destruct (start_cluster W _ _) as [addr|]; [| rewrite (U 3) by lia; reflexivity].
  interp. repeat lookup_bound. interp.
  rewrite bool_decide_eq_true_2 by reflexivity. interp.
  destruct (close_returns W 0); rewrite (U 4) by lia; reflexivity.
Qed.

(** The trimmed notebook differs from the original in the setup cell only. *)
Lemma trimmed_cells :
  trimmed =
    [ markdown; markdown; markdown; markdown;
      code (Some 2) (source cell_setup)
        [ ImportFrom "dask.distributed" "Client" None; construct_client ] [];
      cell_show; cell_fixme; cell_close; markdown; cell_empty ].
Proof. reflexivity. Qed.

Lemma run_trimmed_unfold (W : World) :
  run_all W trimmed =
    if importable W "dask.distributed" "Client" then
      match start_cluster W [] client_config with
      | Some addr =>
          if close_returns W 0 then (Completed, forget_unused (finished addr))
          else (Raised 7 (RuntimeError "close"), forget_unused (close_failed addr))
      | None => (Raised 4 (RuntimeError "Client"), forget_unused (stopped_at_import 3))
      end
    else (Raised 4 (ImportError "dask.distributed" "Client"),
          forget_unused (stopped_at_import 2)).
Proof.
  rewrite trimmed_cells. unfold client_config. interp.
  destruct (importable W "dask.distributed" "Client"); [| vm_compute; reflexivity].
  rewrite imported_Client. lookup_bound. interp.
  destruct (start_cluster W _ _) as [addr|]; [| vm_compute; reflexivity].
  interp. repeat lookup_bound. interp.
  rewrite bool_decide_eq_true_2 by reflexivity. interp.
  destruct (close_returns W 0); vm_compute; reflexivity.
Qed.

(** ** Shapes of a run *)

(** A run stops in the setup cell, at the shutdown, or completes. *)
Lemma run_cases (W : World) :
  (exists n e, n <= 3 /\ run W = (Raised 4 e, stopped_at_import n))
  \/ (exists addr, run W = (Raised 7 (RuntimeError "close"), close_failed addr))
  \/ (exists addr, run W = (Completed, finished addr)).
Proof.
  rewrite run_unfold.
  destruct (importable W "dask" "dataframe"); [| left; exists 0; eauto with lia].
  destruct (importable W "dask" "array"); [| left; exists 1; eauto with lia].
  destruct (importable W "dask.distributed" "Client"); [| left; exists 2; eauto with lia].
  destruct (start_cluster W [] client_config) as [addr|]; [| left; exists 3; eauto with lia].
  destruct (close_returns W 0); eauto.
Qed.

(** Once a client has started, the whole trace is performed. *)
Lemma trace_cases (W : World) :
  (exists n, n <= 3 /\ trace (final W) = take n full_trace)
  \/ trace (final W) = full_trace.
Proof.
  unfold final.
  destruct (run_cases W) as [(n & e & Hn & ->) | [(addr & ->) | (addr & ->)]]; simpl; eauto.
Qed.

Lemma trace_prefix (W : World) : trace (final W) `prefix_of` full_trace.
Proof.
  destruct (trace_cases W) as [(n & _ & ->) | ->]; [apply prefix_take | reflexivity].
Qed.

(** A property of every prefix-closed family of traces is checked on the
    full trace. *)
Lemma trace_Forall (P : event -> Prop) (W : World) :
  Forall P full_trace -> Forall P (trace (final W)).
Proof.
  intros H. destruct (trace_prefix W) as [k Hk]. rewrite Hk in H.
  apply Forall_app in H. tauto.
Qed.

Lemma started_full_trace (W : World) h args kwargs :
  In (EvClientStart h args kwargs) (trace (final W)) ->
  trace (final W) = full_trace /\ h = 0 /\ args = [] /\ kwargs = client_config.
Proof.
  intros Hin.
  destruct (trace_cases W) as [(n & Hn & E) | E]; rewrite E in Hin.
  - exfalso. do 4 (destruct n as [|n]; [simpl in Hin; intuition discriminate |]). lia.
  - split; [exact E |]. simpl in Hin.
    destruct Hin as [H | [H | [H | [H | [H | [H | []]]]]]]; try discriminate.
    injection H as <- <- <-. auto.
Qed.

(** ** The properties *)

(** C1, as stated: every executable statement of the source is the
    construction of the client or its shutdown.  That fails: the setup
    cell starts with three imports and the next cell evaluates the bare
    name [client]. *)
Lemma not_only_setup_and_teardown :
  ~ Forall (fun s => constructs_client s = true \/ closes_client s = true)
           (statements notebook).
Proof.
  intros H. rewrite List.Forall_forall in H.
  assert (Hin : In show_client (statements notebook)) by (simpl; auto 10).
  destruct (H _ Hin) as [E | E]; discriminate E.
Qed.

(** C1, amended: the executable statements of the source are, in order,
    three imports, the construction of the client, the bare expression
    [client] and the shutdown; the only calls among them are the
    construction and the shutdown; and whatever the environment does, a
    run performs a prefix of: the three imports, the start of the client,
    its display, its shutdown. *)
Theorem executable_statements :
  statements notebook =
    [ ImportFrom "dask" "dataframe" (Some "ddf");
      ImportFrom "dask" "array" (Some "da");
      ImportFrom "dask.distributed" "Client" None;
      Assign "client"
        (Call (Name "Client") []
           [ ("n_workers", Constant (Num 2));
             ("threads_per_worker", Constant (Num 1));
             ("memory_limit", Constant (Str "1GB")) ]);
      Expr (Name "client");
      Expr (Call (Attribute (Name "client") "close") [] []) ]
  /\ map unparse_expr (calls notebook) =
       [ "Client(n_workers=2, threads_per_worker=1, memory_limit='1GB')";
         "client.close()" ]
  /\ forall W,
       trace (final W) `prefix_of`
         [ EvImport "dask" "dataframe";
           EvImport "dask" "array";
           EvImport "dask.distributed" "Client";
           EvClientStart 0 []
             [ ("n_workers", VInt 2); ("threads_per_worker", VInt 1);
               ("memory_limit", VStr "1GB") ];
           EvDisplay (VClient 0);
           EvClientClose 0 ].
Proof.
  split; [reflexivity |]. split; [reflexivity |]. exact trace_prefix.
Qed.

(** C2: the source has one call of the [Client] constructor, its
    arguments are the literals [n_workers=2], [threads_per_worker=1] and
    [memory_limit='1GB'], and in every run every client is started with
    exactly these values (and a run in which a client starts exists). *)
Theorem client_constructed_with_constants :
  client_calls notebook =
    [ Call (Name "Client") []
        [ ("n_workers", Constant (Num 2));
          ("threads_per_worker", Constant (Num 1));
          ("memory_limit", Constant (Str "1GB")) ] ]
  /\ (forall W,
        Forall (started_with []
                  [ ("n_workers", VInt 2); ("threads_per_worker", VInt 1);
                    ("memory_limit", VStr "1GB") ])
               (trace (final W)))
  /\ In (EvClientStart 0 []
           [ ("n_workers", VInt 2); ("threads_per_worker", VInt 1);
             ("memory_limit", VStr "1GB") ])
        (trace (final recorded_world)).
Proof.
  split; [reflexivity |]. split.
  - intros W. apply trace_Forall. repeat constructor.
  - vm_compute. auto 10.
Qed.

(** C3, as stated: a single cell lies between the construction and the
    shutdown, and it is an empty placeholder.  That fails: two code cells
    lie in between, and the first holds a statement. *)
Lemma not_a_single_empty_cell_between :
  ~ exists c, intervening notebook = [c] /\ body c = [].
Proof. intros (c & H & _). discriminate H. Qed.

(** C3, amended: two code cells lie between the construction and the
    shutdown, the bare expression [client] and a comment-only cell; they
    hold no call; and in every run the only operation performed between
    the start of the client and its shutdown is the display of that
    client. *)
Theorem no_work_between_start_and_close :
  intervening notebook = [cell_show; cell_fixme]
  /\ map unparse_stmt (statements (intervening notebook)) = [ "client" ]
  /\ flat_map source (intervening notebook) = [ "client"; "# FIXME examples" ]
  /\ calls (intervening notebook) = []
  /\ forall W, Forall (fun e => e = EvDisplay (VClient 0)) (while_open (trace (final W))).
Proof.
  repeat (split; [reflexivity |]).
  intros W.
  destruct (trace_cases W) as [(n & Hn & ->) | ->].
  - do 4 (destruct n as [|n]; [constructor |]). lia.
  - repeat constructor.
Qed.

(** C4, as stated: whenever the notebook is run, every cell executes
    without raising.  That fails where the [distributed] package is not
    installed: the third import of the setup cell raises. *)
Lemma run_can_raise :
  result no_distributed_world = Raised 4 (ImportError "dask.distributed" "Client")
  /\ ~ forall W, result W = Completed.
Proof.
  split; [reflexivity |].
  intros H. specialize (H no_distributed_world). discriminate H.
Qed.

(** The only exceptions a run can end in are those of the environment:
    an import that does not resolve, a cluster that does not start, a
    shutdown that does not return.  The notebook's own name lookups,
    attribute accesses and calls never fail. *)
Lemma failures_come_from_environment (W : World) i e :
  result W = Raised i e ->
  (i = 4 /\ (e = RuntimeError "Client" \/ exists m n, e = ImportError m n))
  \/ (i = 7 /\ e = RuntimeError "close").
Proof.
  unfold result. rewrite run_unfold.
  repeat case_match; simpl; intros [= <- <-]; eauto 10.
Qed.

(** C4, amended: in an environment where the three imports resolve, the
    [Client] constructor starts the cluster and [close] returns, the run
    completes: every code cell executes without raising, and the client
    ends up closed. *)
Theorem run_completes_when_environment_cooperates (W : World) :
  importable W "dask" "dataframe" = true ->
  importable W "dask" "array" = true ->
  importable W "dask.distributed" "Client" = true ->
  is_Some (start_cluster W []
             [ ("n_workers", VInt 2); ("threads_per_worker", VInt 1);
               ("memory_limit", VStr "1GB") ]) ->
  close_returns W 0 = true ->
  result W = Completed
  /\ trace (final W) = full_trace
  /\ map state (clients (final W)) = [Closed].
Proof.
  intros H1 H2 H3 [addr H4] H5. unfold result, final. rewrite run_unfold.
  unfold client_config. rewrite H1, H2, H3, H4, H5. repeat split.
Qed.

Lemma run_completes_witness :
  result recorded_world = Completed
  /\ trace (final recorded_world) = full_trace
  /\ map state (clients (final recorded_world)) = [Closed].
Proof.
  apply (run_completes_when_environment_cooperates recorded_world);
    first [ reflexivity | eexists; reflexivity ].
Defined.

(** The run stored in the notebook shows no error output. *)
Lemma recorded_run_has_no_error :
  Forall (fun c => Forall (fun o => is_error o = false) (outputs c)) notebook.
Proof. repeat constructor. Qed.

(** C5, as stated: the source holds no line of executable code.  That
    fails: it holds six. *)
Lemma source_has_code : length (code_lines notebook) <> 0.
Proof. discriminate. Qed.

(** C5, amended: the source holds six lines of code, one statement each,
    in three of its five code cells. *)
Theorem six_lines_of_code :
  length (code_lines notebook) = 6
  /\ map unparse_stmt (statements notebook) = code_lines notebook
  /\ map (fun c => length (body c)) (code_cells notebook) = [4; 1; 0; 1; 0].
Proof. repeat split. Qed.




(** C7, as stated: executing the notebook exposes no wire protocol and
    persists no state.  That fails: in the recorded environment the run
    leaves the kernel holding a client of a cluster whose scheduler
    listens on a TCP address, and the notebook document stores the output
    of that run, which names the address. *)
Lemma run_starts_a_tcp_scheduler_and_is_stored :
  map scheduler (clients (final recorded_world)) = [ "tcp://127.0.0.1:52321" ]
  /\ flat_map outputs notebook =
       [ execute_result 3
           "<Client: 'tcp://127.0.0.1:52321' processes=2 threads=2, memory=2.00 GB>" ]
  /\ ~ ((forall W, clients (final W) = []) /\ flat_map outputs notebook = []).
Proof.
  split; [reflexivity |]. split; [reflexivity |].
  intros [_ H]. discriminate H.
Qed.

(** C7, amended: the notebook's own statements use no file, no command
    line and no standard stream: they import from dask only, read no
    name but [Client] and [client] (so none of the builtins [open],
    [input], [print]), call nothing but the [Client] constructor and
    [close], and so in no run does the notebook itself open a file, read
    standard input or write to standard output. *)
Theorem no_files_no_cli_no_input :
  imports notebook =
    [ ("dask", "dataframe"); ("dask", "array"); ("dask.distributed", "Client") ]
  /\ flat_map reads (statements notebook) = [ "Client"; "client"; "client" ]
  /\ map unparse_expr (calls notebook) =
       [ "Client(n_workers=2, threads_per_worker=1, memory_limit='1GB')";
         "client.close()" ]
  /\ forall W, Forall (fun e => ~ is_io e) (trace (final W)).
Proof.
  split; [reflexivity |]. split; [reflexivity |]. split; [reflexivity |].
  intros W. apply trace_Forall. repeat constructor; intros [].
Qed.

(** Whatever the environment, if a run starts a client it calls [close]
    on this client exactly once, as the last operation of the run. *)
Lemma close_called_once_and_last (W : World) h args kwargs :
  In (EvClientStart h args kwargs) (trace (final W)) ->
  count_occ event_eq_dec (trace (final W)) (EvClientClose h) = 1
  /\ last (trace (final W)) = Some (EvClientClose h).
Proof.
  intros Hin. apply started_full_trace in Hin as (-> & -> & _ & _).
  split; reflexivity.
Qed.

(** A run that starts a client ends at the shutdown, one way or the other. *)
Lemma started_run (W : World) h args kwargs :
  In (EvClientStart h args kwargs) (trace (final W)) ->
  exists addr,
    run W = if close_returns W 0 then (Completed, finished addr)
            else (Raised 7 (RuntimeError "close"), close_failed addr).
Proof.
  unfold final. rewrite run_unfold.
  repeat case_match; simpl; intros Hin; eauto;
    exfalso; intuition discriminate.
Qed.

(** C8, as stated: every client constructed is closed.  That fails
    where [close] raises: the run has started a client, has called
    [close] on it, and ends with the client still running. *)
Lemma client_left_running_when_close_raises :
  In (EvClientStart 0 [] client_config) (trace (final stuck_close_world))
  /\ result stuck_close_world = Raised 7 (RuntimeError "close")
  /\ map state (clients (final stuck_close_world)) = [Running]
  /\ ~ (forall W h args kwargs,
          In (EvClientStart h args kwargs) (trace (final W)) ->
          state <$> clients (final W) !! h = Some Closed).
Proof.
  assert (Hin : In (EvClientStart 0 [] client_config) (trace (final stuck_close_world)))
    by (vm_compute; auto 10).
  split; [exact Hin |]. split; [reflexivity |]. split; [reflexivity |].
  intros H. specialize (H _ _ _ _ Hin). vm_compute in H. discriminate H.
Qed.

(** C8, amended: if a run starts a client and the call of [close] on it
    returns, then the client is closed at the end of the run, [close]
    has been called on it exactly once, and that call is the last
    operation of the run, so nothing uses the client afterwards; in the
    source, one statement constructs a client, one statement closes it,
    and no statement follows the shutdown. *)
Theorem client_closed_once_and_last (W : World) h args kwargs :
  In (EvClientStart h args kwargs) (trace (final W)) ->
  close_returns W h = true ->
  state <$> clients (final W) !! h = Some Closed
  /\ count_occ event_eq_dec (trace (final W)) (EvClientClose h) = 1
  /\ last (trace (final W)) = Some (EvClientClose h)
  /\ filter (fun s => constructs_client s = true) (statements notebook) = [construct_client]
  /\ filter (fun s => closes_client s = true) (statements notebook) = [close_client]
  /\ after closes_client (statements notebook) = [].
Proof.
  intros Hin Hc.
  destruct (close_called_once_and_last W h args kwargs Hin) as (C1 & C2).
  destruct (started_run W h args kwargs Hin) as (addr & Hrun).
  apply started_full_trace in Hin as (_ & -> & _ & _).
  rewrite Hc in Hrun. unfold final in *. rewrite Hrun in *.
  repeat split; assumption.
Qed.

Lemma client_closed_once_and_last_witness :
  state <$> clients (final recorded_world) !! 0 = Some Closed
  /\ count_occ event_eq_dec (trace (final recorded_world)) (EvClientClose 0) = 1
  /\ last (trace (final recorded_world)) = Some (EvClientClose 0)
  /\ filter (fun s => constructs_client s = true) (statements notebook) = [construct_client]
  /\ filter (fun s => closes_client s = true) (statements notebook) = [close_client]
  /\ after closes_client (statements notebook) = [].
Proof.
  apply (client_closed_once_and_last recorded_world 0 [] client_config).
  - vm_compute. auto 10.
  - reflexivity.
Defined.

(** C9, as stated: the notebook without the imports of [ddf] and [da]
    behaves as the original.  That fails where pandas is missing: there
    the original raises at [from dask import dataframe], while the
    trimmed notebook runs to completion. *)
Lemma trimmed_not_equivalent :
  result no_pandas_world = Raised 4 (ImportError "dask" "dataframe")
  /\ fst (run_all no_pandas_world trimmed) = Completed
  /\ ~ forall W, fst (run_all W trimmed) = result W.
Proof.
  split; [reflexivity |]. split; [reflexivity |].
  intros H. specialize (H no_pandas_world). vm_compute in H. discriminate H.
Qed.

(** C9, amended: no statement reads [ddf] or [da]; and in an environment
    where those two imports resolve, the trimmed notebook ends as the
    original does, with the same clients, the same operations but the two
    imports, and the same bindings but [ddf] and [da]. *)
Theorem trimmed_equivalent_when_imports_resolve (W : World) :
  importable W "dask" "dataframe" = true ->
  importable W "dask" "array" = true ->
  Forall (fun s => ~ In "ddf" (reads s) /\ ~ In "da" (reads s)) (statements notebook)
  /\ fst (run_all W trimmed) = result W
  /\ clients (snd (run_all W trimmed)) = clients (final W)
  /\ trace (snd (run_all W trimmed)) =
       filter (fun e => e <> EvImport "dask" "dataframe" /\ e <> EvImport "dask" "array")
              (trace (final W))
  /\ user_ns (snd (run_all W trimmed)) = delete "ddf" (delete "da" (user_ns (final W))).
Proof.
  intros H1 H2. split.
  - repeat constructor; simpl; intuition discriminate.
  - unfold result, final. rewrite run_trimmed_unfold, run_unfold, H1, H2.
    repeat case_match; repeat split.
Qed.

Lemma trimmed_equivalent_witness :
  Forall (fun s => ~ In "ddf" (reads s) /\ ~ In "da" (reads s)) (statements notebook)
  /\ fst (run_all recorded_world trimmed) = result recorded_world
  /\ clients (snd (run_all recorded_world trimmed)) = clients (final recorded_world)
  /\ trace (snd (run_all recorded_world trimmed)) =
       filter (fun e => e <> EvImport "dask" "dataframe" /\ e <> EvImport "dask" "array")
              (trace (final recorded_world))
  /\ user_ns (snd (run_all recorded_world trimmed)) =
       delete "ddf" (delete "da" (user_ns (final recorded_world))).
Proof.
  apply (trimmed_equivalent_when_imports_resolve recorded_world); reflexivity.
Defined.

(** The run does not depend on what standard input holds. *)
Lemma run_ignores_stdin (W : World) (s : string) : run (with_stdin s W) = run W.
Proof. rewrite !run_unfold. reflexivity. Qed.

(** Nor on the bindings the kernel held before. *)
Lemma run_takes_no_input (W : World) (s : string) (ns : gmap string value) :
  observable (run_from (with_stdin s W) ns) = observable (run W).
Proof.
  rewrite run_from_frame. unfold observable, result, final. simpl.
  rewrite run_ignores_stdin. reflexivity.
Qed.

(** C10: the arguments of the [Client] call are literals; the outcome,
    the operations and the clients of a run do not depend on standard
    input or on earlier bindings; and the clients started in any two
    runs, whatever the two environments, receive the same arguments:
    [n_workers=2], [threads_per_worker=1], [memory_limit='1GB']. *)
Theorem client_arguments_same_in_all_runs (W1 W2 : World) h1 args1 kwargs1 h2 args2 kwargs2 :
  In (EvClientStart h1 args1 kwargs1) (trace (final W1)) ->
  In (EvClientStart h2 args2 kwargs2) (trace (final W2)) ->
  (args1 = args2 /\ kwargs1 = kwargs2
   /\ kwargs1 = [ ("n_workers", VInt 2); ("threads_per_worker", VInt 1);
                  ("memory_limit", VStr "1GB") ])
  /\ forallb literal_arguments (client_calls notebook) = true
  /\ (forall s ns, observable (run_from (with_stdin s W1) ns) = observable (run W1))
  /\ (forall s ns, observable (run_from (with_stdin s W2) ns) = observable (run W2)).
Proof.
  intros Hin1 Hin2.
  apply started_full_trace in Hin1 as (_ & _ & -> & ->).
  apply started_full_trace in Hin2 as (_ & _ & -> & ->).
  repeat split; intros s ns; apply run_takes_no_input.
Qed.

Lemma client_arguments_witness :
  ((@nil value) = [] /\ client_config = client_config
   /\ client_config = [ ("n_workers", VInt 2); ("threads_per_worker", VInt 1);
                        ("memory_limit", VStr "1GB") ])
  /\ forallb literal_arguments (client_calls notebook) = true
  /\ (forall s ns, observable (run_from (with_stdin s recorded_world) ns)
                   = observable (run recorded_world))
  /\ (forall s ns, observable (run_from (with_stdin s stuck_close_world) ns)
                   = observable (run stuck_close_world)).
Proof.
  apply (client_arguments_same_in_all_runs recorded_world stuck_close_world
           0 [] client_config 0 [] client_config);
    vm_compute; auto 10.
Defined.

(** ** Cells run one at a time *)

(** As [interp], keeping the list operations folded. *)
Ltac interp_cell :=
  cbv [run_in run_cells exec_cell body
       cell_setup cell_show cell_fixme cell_close cell_empty
       construct_client show_client close_client client_keywords
       exec_body exec_stmt exec_import bind emit store ret raise eval load call
       getattr display default new_client mark_closed const_value
       from_option id user_ns clients trace fst snd];
  rewrite ?imported_Client, ?imported_dataframe, ?imported_array.

Ltac norm_kernel :=
  unfold after_setup, after_close, with_trace, bind_all, setup_bindings, setup_trace,
    client_config, the_client;
  simpl;
  rewrite <- ?app_assoc, ?app_nil_r; simpl.

(** The setup cell, from any kernel. *)
Lemma exec_setup (W : World) (k : kernel) :
  exec_cell W cell_setup k =
    if importable W "dask" "dataframe" then
      if importable W "dask" "array" then
        if importable W "dask.distributed" "Client" then
          match start_cluster W [] client_config with
          | Some addr => (inr tt, after_setup 4 addr k)
          | None => (inl (RuntimeError "Client"), after_setup 3 "" k)
          end
        else (inl (ImportError "dask.distributed" "Client"), after_setup 2 "" k)
      else (inl (ImportError "dask" "array"), after_setup 1 "" k)
    else (inl (ImportError "dask" "dataframe"), after_setup 0 "" k).
Proof.
  destruct k as [ns cl tr]. norm_kernel. interp_cell.
  destruct (importable W "dask" "dataframe"); [| norm_kernel; reflexivity].
  destruct (importable W "dask" "array"); [| norm_kernel; reflexivity].
  destruct (importable W "dask.distributed" "Client"); [| norm_kernel; reflexivity].
  lookup_bound. interp_cell.
  destruct (start_cluster W _ _) as [addr|]; norm_kernel; reflexivity.
Qed.

(** The display cell, from any kernel. *)
Lemma exec_show (W : World) (k : kernel) :
  exec_cell W cell_show k =
    match user_ns k !! "client" with
    | Some VNone => (inr tt, k)
    | Some v => (inr tt, with_trace k [EvDisplay v])
    | None => (inl (NameError "client"), k)
    end.
Proof.
  destruct k as [ns cl tr]. interp_cell.
  destruct (ns !! "client") as [v|]; [destruct v |]; reflexivity.
Qed.

(** The shutdown cell, where [client] is bound to a client. *)
Lemma exec_close (W : World) (k : kernel) (h : nat) :
  user_ns k !! "client" = Some (VClient h) ->
  exec_cell W cell_close k =
    if close_returns W h then (inr tt, after_close h true k)
    else (inl (RuntimeError "close"), after_close h false k).
Proof.
  destruct k as [ns cl tr]. simpl. intros E. interp_cell. rewrite E.
  rewrite bool_decide_eq_true_2 by reflexivity.
  destruct (close_returns W h); reflexivity.
Qed.

(** After a successful setup cell [client] is the new client. *)
Lemma client_after_setup (addr : string) (k : kernel) :
  user_ns (after_setup 4 addr k) !! "client" = Some (VClient (length (clients k))).
Proof. unfold after_setup, bind_all. simpl. apply lookup_insert_eq. Qed.

(** "Run All" is the setup cell, the display cell and the shutdown cell:
    markdown, comment-only and empty cells do nothing. *)
Lemma run_in_cells (W : World) (k : kernel) :
  run_in W k =
    match exec_cell W cell_setup k with
    | (inl e, k') => (Raised 4 e, k')
    | (inr _, k1) =>
        match exec_cell W cell_show k1 with
        | (inl e, k') => (Raised 5 e, k')
        | (inr _, k2) =>
            match exec_cell W cell_close k2 with
            | (inl e, k') => (Raised 7 e, k')
            | (inr _, k3) => (Completed, k3)
            end
        end
    end.
Proof.
  unfold run_in, notebook. simpl run_cells.
  destruct (exec_cell W cell_setup k) as [[e|[]] k1]; [reflexivity |].
  destruct (exec_cell W cell_show k1) as [[e|[]] k2]; [reflexivity |].
  change (exec_cell W cell_fixme k2) with (@inr exn unit tt, k2). cbv iota.
  destruct (exec_cell W cell_close k2) as [[e|[]] k3]; reflexivity.
Qed.

(** "Run All" from any kernel, decided by five answers of the environment. *)
Lemma run_in_unfold (W : World) (k : kernel) :
  run_in W k =
    if importable W "dask" "dataframe" then
      if importable W "dask" "array" then
        if importable W "dask.distributed" "Client" then
          match start_cluster W [] client_config with
          | Some addr =>
              let h := length (clients k) in
              let k2 := with_trace (after_setup 4 addr k) [EvDisplay (VClient h)] in
              if close_returns W h then (Completed, after_close h true k2)
              else (Raised 7 (RuntimeError "close"), after_close h false k2)
          | None => (Raised 4 (RuntimeError "Client"), after_setup 3 "" k)
          end
        else (Raised 4 (ImportError "dask.distributed" "Client"), after_setup 2 "" k)
      else (Raised 4 (ImportError "dask" "array"), after_setup 1 "" k)
    else (Raised 4 (ImportError "dask" "dataframe"), after_setup 0 "" k).
Proof.
  rewrite run_in_cells, exec_setup.
  destruct (importable W "dask" "dataframe"); [| reflexivity].
  destruct (importable W "dask" "array"); [| reflexivity].
  destruct (importable W "dask.distributed" "Client"); [| reflexivity].
  destruct (start_cluster W [] client_config) as [addr|]; [| reflexivity].
  rewrite exec_show, client_after_setup.
  rewrite (exec_close W _ (length (clients k))) by apply client_after_setup.
  cbv zeta. destruct (close_returns W (length (clients k))); reflexivity.
Qed.

(** *** Helper facts on the kernels a run goes through *)


Lemma after_setup_other (n : nat) (addr : string) (k : kernel) (x : string) :
  ~ In x bound_names ->
  user_ns (after_setup n addr k) !! x = user_ns k !! x.
Proof.
  intros Hx. unfold after_setup, bind_all. simpl in Hx.
  do 4 (destruct n as [|n];
        [simpl; rewrite ?lookup_insert_ne by (intros <-; tauto); reflexivity |]).
  rewrite take_ge by (simpl; lia).
  simpl. rewrite !lookup_insert_ne by (intros <-; tauto). reflexivity.
Qed.

Lemma clients_after_setup (addr : string) (k : kernel) :
  clients (after_setup 4 addr k) = clients k ++ [the_client addr Running].
Proof. reflexivity. Qed.

(** Closing the client that was appended last marks it, and only it. *)
Lemma close_last (cl : list client_object) (c : client_object) :
  alter closed_object (length cl) (cl ++ [c]) = cl ++ [closed_object c].
Proof.
  rewrite alter_app_r_alt by lia. rewrite Nat.sub_diag. reflexivity.
Qed.

(** The kernel at the end of a complete run. *)
Lemma complete_run_kernel (addr : string) (k : kernel) :
  let h := length (clients k) in
  let k' := after_close h true (with_trace (after_setup 4 addr k) [EvDisplay (VClient h)]) in
  clients k' = clients k ++ [the_client addr Closed]
  /\ user_ns k' = user_ns (after_setup 4 addr k)
  /\ trace k' = trace k ++ setup_trace h ++ [EvDisplay (VClient h); EvClientClose h].
Proof.
  cbv zeta. unfold after_close, with_trace. simpl.
  rewrite close_last, <- !app_assoc. auto.
Qed.

(** ** Further properties of the cells *)

(** X1: from whatever kernel "Run All" starts, it can only raise what
    the environment raises: an import error or a failed cluster start in
    the setup cell, or a failed shutdown in the shutdown cell.  No cell
    ever raises a [NameError], an [AttributeError] or a [TypeError]. *)
Theorem run_raises_only_environment_errors (W : World) (k : kernel) i e :
  fst (run_in W k) = Raised i e ->
  (i = 4 /\ (e = ImportError "dask" "dataframe"
             \/ e = ImportError "dask" "array"
             \/ e = ImportError "dask.distributed" "Client"
             \/ e = RuntimeError "Client"))
  \/ (i = 7 /\ e = RuntimeError "close").
Proof.
  rewrite run_in_unfold. cbv zeta.
  repeat case_match; simpl; intros [= <- <-]; auto 10.
Qed.

Lemma run_raises_only_environment_errors_witness :
  (4 = 4 /\ (ImportError "dask.distributed" "Client" = ImportError "dask" "dataframe"
             \/ ImportError "dask.distributed" "Client" = ImportError "dask" "array"
             \/ ImportError "dask.distributed" "Client"
                = ImportError "dask.distributed" "Client"
             \/ ImportError "dask.distributed" "Client" = RuntimeError "Client"))
  \/ (4 = 7 /\ ImportError "dask.distributed" "Client" = RuntimeError "close").
Proof.
  apply (run_raises_only_environment_errors no_distributed_world used_kernel).
  reflexivity.
Defined.







(** X5: frame.  Whatever the environment and the outcome, "Run All"
    leaves every name as it was, other than [ddf], [da], [Client] and
    [client] and than the names the shell keeps for itself; it never
    removes or alters a client that existed before, and only appends to
    the record of operations. *)
Theorem run_leaves_the_rest_of_the_kernel (W : World) (k : kernel) (x : string) :
  ~ In x bound_names ->
  shell_name x = false ->
  user_ns (snd (run_in W k)) !! x = user_ns k !! x
  /\ clients k `prefix_of` clients (snd (run_in W k))
  /\ trace k `prefix_of` trace (snd (run_in W k)).
Proof.
  intros Hx _. rewrite run_in_unfold. cbv zeta.
  assert (F : forall n addr,
             user_ns (after_setup n addr k) !! x = user_ns k !! x
             /\ clients k `prefix_of` clients (after_setup n addr k)
             /\ trace k `prefix_of` trace (after_setup n addr k)).
  { intros n addr. split; [apply after_setup_other, Hx |].
    split; apply prefix_app_r; reflexivity. }
  assert (G : forall addr b,
             let h := length (clients k) in
             let k' := after_close h b (with_trace (after_setup 4 addr k)
                                          [EvDisplay (VClient h)]) in
             user_ns k' !! x = user_ns k !! x
             /\ clients k `prefix_of` clients k'
             /\ trace k `prefix_of` trace k').
  { intros addr b. cbv zeta. split; [apply (after_setup_other 4), Hx |]. split.
    - destruct b; simpl; [rewrite close_last |]; apply prefix_app_r; reflexivity.
    - simpl. rewrite <- !app_assoc. apply prefix_app_r. reflexivity. }
  repeat case_match; cbn [snd]; first [apply F | apply (G _ true) | apply (G _ false)].
Qed.

Lemma run_leaves_the_rest_witness :
  user_ns (snd (run_in recorded_world used_kernel)) !! "x" = user_ns used_kernel !! "x"
  /\ clients used_kernel `prefix_of` clients (snd (run_in recorded_world used_kernel))
  /\ trace used_kernel `prefix_of` trace (snd (run_in recorded_world used_kernel)).
Proof.
  apply (run_leaves_the_rest_of_the_kernel recorded_world used_kernel "x").
  - simpl. intuition discriminate.
  - reflexivity.
Defined.

(** X6: invariant.  If every client of the kernel is closed before a run
    and the run completes, every client is closed after it, and there is
    exactly one more. *)
Theorem complete_run_leaves_every_client_closed (W : World) (k : kernel) :
  Forall (fun c => is_closed c = true) (clients k) ->
  fst (run_in W k) = Completed ->
  Forall (fun c => is_closed c = true) (clients (snd (run_in W k)))
  /\ length (clients (snd (run_in W k))) = S (length (clients k)).
Proof.
  intros Hcl. rewrite run_in_unfold. cbv zeta.
  repeat case_match; simpl; try discriminate; intros _.
  rewrite close_last, length_app. simpl. split; [| lia].
  apply Forall_app. split; [exact Hcl | repeat constructor].
Qed.

Lemma complete_run_closed_witness :
  Forall (fun c => is_closed c = true) (clients (snd (run_in recorded_world used_kernel)))
  /\ length (clients (snd (run_in recorded_world used_kernel)))
     = S (length (clients used_kernel)).
Proof.
  apply (complete_run_leaves_every_client_closed recorded_world used_kernel).
  - repeat constructor.
  - reflexivity.
Defined.

(** One complete run, in an environment that cooperates. *)
Lemma run_in_completes (W : World) (k : kernel) :
  cooperates W ->
  exists k', run_in W k = (Completed, k')
    /\ (exists addr, clients k' = clients k ++ [the_client addr Closed])
    /\ user_ns k' !! "client" = Some (VClient (length (clients k))).
Proof.
  intros [(addr & H1 & H2 & H3 & H4) H5].
  rewrite run_in_unfold, H1, H2, H3, H4. cbv zeta.
  rewrite H5. eexists. split; [reflexivity |].
  destruct (complete_run_kernel addr k) as (Hc & Hn & _). cbv zeta in Hc, Hn.
  split; [eauto |]. rewrite Hn. apply client_after_setup.
Qed.

(** X7: "Run All" several times in a row in the same kernel, each time
    in an environment where the imports resolve, the cluster starts and
    [close] returns: every run completes; the clients that were there
    stay as they were; each run adds one client, and all the added
    clients end up closed; [client] names the one created last. *)
Theorem each_run_adds_one_closed_client (Ws : list World) (k : kernel) :
  Forall cooperates Ws ->
  fst (run_each Ws k) = Completed
  /\ (exists added,
        clients (snd (run_each Ws k)) = clients k ++ added
        /\ length added = length Ws
        /\ Forall (fun c => is_closed c = true) added)
  /\ user_ns (snd (run_each Ws k)) !! "client" =
       match length Ws with
       | 0 => user_ns k !! "client"
       | S m => Some (VClient (length (clients k) + m))
       end.
Proof.
  intros HWs. revert k.
  induction HWs as [|W Ws HW _ IH]; intros k.
  - simpl. split; [reflexivity |]. split; [| reflexivity].
    exists []. rewrite app_nil_r. auto.
  - destruct (run_in_completes W k HW) as (k' & Hrun & (addr & Hc) & Hb).
    simpl. rewrite Hrun.
    destruct (IH k') as (R1 & (added & R2 & R3 & R4) & R5).
    assert (L : length (clients k') = S (length (clients k)))
      by (rewrite Hc, length_app; simpl; lia).
    split; [exact R1 |]. split.
    + exists (the_client addr Closed :: added).
      rewrite R2, Hc, <- app_assoc. simpl.
      split; [reflexivity |]. split; [lia |].
      constructor; [reflexivity | exact R4].
    + rewrite R5. destruct (length Ws) as [|m].
      * rewrite Hb, Nat.add_0_r. reflexivity.
      * rewrite L. do 2 f_equal. lia.
Qed.

Lemma each_run_witness :
  let Ws := [recorded_world; later_world; recorded_world] in
  fst (run_each Ws used_kernel) = Completed
  /\ (exists added,
        clients (snd (run_each Ws used_kernel)) = clients used_kernel ++ added
        /\ length added = length Ws
        /\ Forall (fun c => is_closed c = true) added)
  /\ user_ns (snd (run_each Ws used_kernel)) !! "client" =
       match length Ws with
       | 0 => user_ns used_kernel !! "client"
       | S m => Some (VClient (length (clients used_kernel) + m))
       end.
Proof.
  apply (each_run_adds_one_closed_client
           [recorded_world; later_world; recorded_world] used_kernel).
  repeat constructor; first [ eexists; repeat split; reflexivity | reflexivity ].
Defined.

(** X8: the display cell is read-only.  From any kernel, whatever
    [client] is bound to, it changes no client and no binding other than
    the shell's own; all it adds to the record is the display of the
    value of [client], and nothing when that value is [None] or the name
    is unbound. *)
Theorem display_cell_is_read_only (W : World) (k : kernel) (x : string) :
  shell_name x = false ->
  user_ns (snd (exec_cell W cell_show k)) !! x = user_ns k !! x
  /\ clients (snd (exec_cell W cell_show k)) = clients k
  /\ trace (snd (exec_cell W cell_show k)) =
       trace k ++ match user_ns k !! "client" with
                  | Some VNone | None => []
                  | Some v => [EvDisplay v]
                  end.
Proof.
  intros _. rewrite exec_show.
  destruct (user_ns k !! "client") as [v|]; [destruct v |];
    simpl; rewrite ?app_nil_r; auto.
Qed.

Lemma display_cell_witness :
  let k := after_setup 4 "tcp://127.0.0.1:52321" used_kernel in
  user_ns (snd (exec_cell recorded_world cell_show k)) !! "client" = user_ns k !! "client"
  /\ clients (snd (exec_cell recorded_world cell_show k)) = clients k
  /\ trace (snd (exec_cell recorded_world cell_show k)) =
       trace k ++ match user_ns k !! "client" with
                  | Some VNone | None => []
                  | Some v => [EvDisplay v]
                  end.
Proof.
  apply (display_cell_is_read_only recorded_world
           (after_setup 4 "tcp://127.0.0.1:52321" used_kernel) "client").
  reflexivity.
Defined.



(** X10: executing the setup cell a second time before the shutdown
    cell starts a second client, on its own address, and rebinds
    [client] to it; the shutdown cell then calls [close] on the second
    client only: the second ends up closed and the first is left
    running. *)
Theorem setup_twice_closes_the_latest_client_only
    (W1 W2 W3 : World) (k : kernel) (addr1 addr2 : string) :
  setup_succeeds W1 addr1 ->
  setup_succeeds W2 addr2 ->
  close_returns W3 (S (length (clients k))) = true ->
  let h := length (clients k) in
  let r := exec_cells [(W1, cell_setup); (W2, cell_setup); (W3, cell_close)] k in
  fst r = inr tt
  /\ clients (snd r) = clients k ++ [the_client addr1 Running; the_client addr2 Closed]
  /\ user_ns (snd r) !! "client" = Some (VClient (S h))
  /\ trace (snd r) = trace k ++ setup_trace h ++ setup_trace (S h) ++ [EvClientClose (S h)].
Proof.
  intros (A1 & A2 & A3 & A4) (B1 & B2 & B3 & B4) H5. cbv zeta.
  assert (L : length (clients (after_setup 4 addr1 k)) = S (length (clients k))).
  { rewrite clients_after_setup, length_app. simpl. lia. }
  assert (B : user_ns (after_setup 4 addr2 (after_setup 4 addr1 k)) !! "client"
              = Some (VClient (S (length (clients k))))).
  { rewrite client_after_setup. do 2 f_equal. exact L. }
  unfold exec_cells.
  rewrite exec_setup, A1, A2, A3, A4.
  rewrite exec_setup, B1, B2, B3, B4.
  rewrite (exec_close W3 _ _ B), H5.
  split; [reflexivity |]. split; [| split; [exact B |]].
  - simpl. rewrite <- app_assoc. simpl.
    replace (S (length (clients k)))
      with (length (clients k ++ [the_client addr1 Running]))
      by (rewrite length_app; simpl; lia).
    change (clients k ++ [the_client addr1 Running; the_client addr2 Running])
      with (clients k ++ [the_client addr1 Running] ++ [the_client addr2 Running]).
    rewrite app_assoc, close_last, <- app_assoc. reflexivity.
  - simpl. simpl in L. rewrite L, <- !app_assoc. reflexivity.
Qed.

Lemma setup_twice_witness :
  let h := length (clients used_kernel) in
  let r := exec_cells [ (recorded_world, cell_setup); (later_world, cell_setup);
                        (recorded_world, cell_close) ] used_kernel in
  fst r = inr tt
  /\ clients (snd r)
     = clients used_kernel ++ [ the_client "tcp://127.0.0.1:52321" Running;
                                the_client "tcp://127.0.0.1:40001" Closed ]
  /\ user_ns (snd r) !! "client" = Some (VClient (S h))
  /\ trace (snd r)
     = trace used_kernel ++ setup_trace h ++ setup_trace (S h) ++ [EvClientClose (S h)].
Proof.
  apply (setup_twice_closes_the_latest_client_only recorded_world later_world
           recorded_world used_kernel "tcp://127.0.0.1:52321" "tcp://127.0.0.1:40001");
    first [ reflexivity | repeat split; reflexivity ].
Defined.
